(** * felte: [createForm] (src/create-form.ts)

    A shallow embedding of the form binding of [createForm]: the snapshot
    of the form controls taken at bind time, the input / change / focusout
    handlers, the submit handler, the overridden [data.set] and the
    life cycle of the listeners.

    Conventions.
    - A JavaScript object used as a record of named properties
      ([touched], [data], [errors], [defaultData]) is a [gmap string _] of
      its own properties; a read that the source makes with [o[key]] goes
      through [js_read], which falls back on the members every plain object
      inherits from [Object.prototype].
    - The stores come from [createStores] (src/stores.ts): they are
      modelled as cells with get / set / update.  What the [errors] store
      holds once the data has been written is decided by the stores and the
      validator, and is a parameter ([deriveErrors]).
    - Arrays and objects carry the reference they were allocated at, since
      [===] compares them by identity.
    - A function that can throw returns the stores as the throw leaves them
      and how it ended. *)

From Stdlib Require Import QArith Qcanon Ascii.
From stdpp Require Import gmap strings list fin_maps numbers.

Open Scope string_scope.
Open Scope list_scope.
Set Warnings "-register-all".

(** ** JavaScript values *)

(** An IEEE double as far as [!!x] and [===] can tell: not-a-number, the
    two infinities, or a finite rational (the two zeros are identified). *)
Inductive number : Type :=
  | NaN
  | Infinity (negative : bool)
  | Finite (q : Qc).

Definition ref : Type := N.

(** [VBuiltin m] is the member [m] that a plain object inherits from
    [Object.prototype]: a function, or the prototype itself for
    [__proto__]; an object that is no array, known by its name. *)
Inductive JsValue : Type :=
  | VUndefined
  | VNull
  | VBool (b : bool)
  | VNumber (n : number)
  | VString (s : string)
  | VArray (r : ref) (items : list string)
  | VObject (r : ref) (props : list (string * JsValue))
  | VBuiltin (member : string).

Definition number_truthy (n : number) : bool :=
  match n with
  | NaN => false
  | Infinity _ => true
  | Finite q => negb (bool_decide (q = 0%Qc))
  end.

(** [!!v] *)
Definition truthy (v : JsValue) : bool :=
  match v with
  | VUndefined | VNull => false
  | VBool b => b
  | VNumber n => number_truthy n
  | VString s => negb (bool_decide (s = ""))
  | VArray _ _ | VObject _ _ | VBuiltin _ => true
  end.

Definition number_eq (a b : number) : bool :=
  match a, b with
  | Infinity x, Infinity y => bool_decide (x = y)
  | Finite p, Finite q => bool_decide (p = q)
  | _, _ => false
  end.

(** [a === b] *)
Definition strict_eq (a b : JsValue) : bool :=
  match a, b with
  | VUndefined, VUndefined => true
  | VNull, VNull => true
  | VBool x, VBool y => bool_decide (x = y)
  | VNumber x, VNumber y => number_eq x y
  | VString x, VString y => bool_decide (x = y)
  | VArray r _, VArray r' _ => bool_decide (r = r')
  | VObject r _, VObject r' _ => bool_decide (r = r')
  | VBuiltin m, VBuiltin m' => bool_decide (m = m')
  | _, _ => false
  end.

(** [a !== b] *)
Definition strict_neq (a b : JsValue) : bool := negb (strict_eq a b).

(** What ECMAScript calls strictly equal, case by case: primitives of one
    type with the same content, not-a-number excepted, and objects of one
    identity, whatever they hold. *)
Inductive strictly_equal : JsValue → JsValue → Prop :=
  | equal_undefined : strictly_equal VUndefined VUndefined
  | equal_null : strictly_equal VNull VNull
  | equal_bool b : strictly_equal (VBool b) (VBool b)
  | equal_infinity b :
      strictly_equal (VNumber (Infinity b)) (VNumber (Infinity b))
  | equal_finite q : strictly_equal (VNumber (Finite q)) (VNumber (Finite q))
  | equal_string s : strictly_equal (VString s) (VString s)
  | equal_array r items items' :
      strictly_equal (VArray r items) (VArray r items')
  | equal_object r props props' :
      strictly_equal (VObject r props) (VObject r props')
  | equal_builtin m : strictly_equal (VBuiltin m) (VBuiltin m).

(** [typeof v === 'undefined'] *)
Definition is_undefined (v : JsValue) : bool :=
  match v with VUndefined => true | _ => false end.

(** The own property [key] of [o], or [dflt]. *)
Definition get_prop {A} (dflt : A) (o : gmap string A) (key : string) : A :=
  default dflt (o !! key).

(** The names of the members of [Object.prototype]. *)
Definition Object_prototype : list string :=
  ["constructor"; "__defineGetter__"; "__defineSetter__"; "hasOwnProperty";
   "__lookupGetter__"; "__lookupSetter__"; "isPrototypeOf";
   "propertyIsEnumerable"; "toString"; "valueOf"; "__proto__";
   "toLocaleString"].

Definition inherited (key : string) : bool :=
  bool_decide (key ∈ Object_prototype).

(** [o[key]] on a plain object: the own property, else the inherited
    member, else [undefined]. *)
Definition js_read (o : gmap string JsValue) (key : string) : JsValue :=
  match o !! key with
  | Some v => v
  | None => if inherited key then VBuiltin key else VUndefined
  end.

(** [o[key] = v] with a primitive or an array [v] on a plain object: an
    own property, except under [__proto__], where the inherited setter
    takes the value and makes no property (a primitive is dropped). *)
Definition assign_prop (o : gmap string JsValue) (key : string) (v : JsValue)
  : gmap string JsValue :=
  if bool_decide (key = "__proto__") then o else <[key := v]> o.

(** [Object.keys(o)] *)
Definition Object_keys {A} (o : gmap string A) : list string :=
  (map_to_list o).*1.

(** A leaf of a nested object is any value that is not itself an object.
    [has_truthy_leaf v] looks for a truthy leaf at any depth. *)
Fixpoint has_truthy_leaf (v : JsValue) : bool :=
  match v with
  | VObject _ props =>
      (fix inside (l : list (string * JsValue)) : bool :=
         match l with
         | [] => false
         | (_, x) :: l' => has_truthy_leaf x || inside l'
         end) props
  | _ => truthy v
  end.

Definition has_truthy_leaf_in (o : gmap string JsValue) : bool :=
  existsb (λ key, has_truthy_leaf (get_prop VUndefined o key)) (Object_keys o).

(** [o.a.b...] along a path of property names through nested records:
    the own properties of plain objects are followed, the properties of
    arrays and strings (indices, [length]) are not. *)
Fixpoint assoc_get (l : list (string * JsValue)) (key : string) : JsValue :=
  match l with
  | [] => VUndefined
  | (k, x) :: l' => if bool_decide (k = key) then x else assoc_get l' key
  end.

Fixpoint get_path (v : JsValue) (path : list string) : JsValue :=
  match path with
  | [] => v
  | key :: rest =>
      match v with
      | VObject _ props => get_path (assoc_get props key) rest
      | _ => VUndefined
      end
  end.

(** The values thrown by the platform. *)
Definition TypeError : JsValue := VString "TypeError".
Definition SyntaxError : JsValue := VString "SyntaxError".

(** ** The DOM as the code reads it *)

(** An element of the form, with the properties the code reads.  An element
    without a [checked] property (a select, a fieldset) has [checked] false,
    which is what the [undefined] it yields amounts to in a condition. *)
Record Element : Type := {
  nodeName : string;
  name : string;
  type : string;
  value : string;
  checked : bool
}.

Inductive Listener : Type :=
  | HandleInput (binding : ref)
  | HandleChange (binding : ref)
  | HandleBlur (binding : ref)
  | HandleSubmit.

#[global] Instance Listener_eq_dec : EqDecision Listener.
Proof. solve_decision. Defined.

(** A form element: its controls in DOM order ([node.elements], which
    holds the controls associated with the form, inside it or not), the
    elements inside it in tree order (where [querySelectorAll] searches),
    and the listeners registered on it. *)
Record HTMLFormElement : Type := {
  elements : list Element;
  descendants : list Element;
  listeners : list (string * Listener)
}.

Record Event : Type := { target : option Element }.

Definition isInputElement (el : option Element) : bool :=
  match el with
  | Some e => bool_decide (nodeName e = "INPUT")
  | None => false
  end.

Definition isTextAreaElement (el : option Element) : bool :=
  match el with
  | Some e => bool_decide (nodeName e = "TEXTAREA")
  | None => false
  end.

(** Whether [target.reportValidity] is there to be called: the method of
    forms and of the controls that take part in constraint validation. *)
Definition has_reportValidity (t : option Element) : bool :=
  match t with
  | Some e =>
      bool_decide (nodeName e ∈ ["FORM"; "INPUT"; "SELECT"; "TEXTAREA";
                                  "BUTTON"; "FIELDSET"; "OUTPUT"; "OBJECT"])
  | None => false
  end.

(** *** The selector [[name=${n}]]

    The name is put into the selector as it is.  [selector_class] reads
    the selector for the names it can decide: a name that is a plain CSS
    identifier gives the selector of the elements of that name; a name
    whose value part cannot be an identifier or a string, or whose
    identifier runs into a [.] or a [[], is a syntax error; the rest is
    left to the selector engine. *)

Definition is_letter (c : Ascii.ascii) : bool :=
  let code := Ascii.N_of_ascii c in
  ((65 <=? code)%N && (code <=? 90)%N) || ((97 <=? code)%N && (code <=? 122)%N).

Definition is_digit (c : Ascii.ascii) : bool :=
  let code := Ascii.N_of_ascii c in (48 <=? code)%N && (code <=? 57)%N.

Definition ident_start (c : Ascii.ascii) : bool :=
  is_letter c || bool_decide (c = "_"%char).

Definition ident_char (c : Ascii.ascii) : bool :=
  ident_start c || is_digit c || bool_decide (c = "-"%char).

(** No identifier and no string can start with one of these. *)
Definition no_value_start (c : Ascii.ascii) : bool :=
  is_digit c || bool_decide (c = "."%char) || bool_decide (c = "["%char)
  || bool_decide (c = "]"%char).

Inductive SelectorClass : Type :=
  | ByName
  | Malformed
  | Undecided.

(** What follows the first characters of an identifier. *)
Fixpoint after_ident (s : string) : SelectorClass :=
  match s with
  | EmptyString => ByName
  | String c s' =>
      if ident_char c then after_ident s'
      else if bool_decide (c = "."%char) || bool_decide (c = "["%char)
      then Malformed
      else Undecided
  end.

Definition selector_class (n : string) : SelectorClass :=
  match n with
  | EmptyString => Malformed
  | String c rest =>
      if ident_start c then after_ident rest
      else if bool_decide (c = "-"%char) then
        match rest with
        | EmptyString => Malformed
        | String c2 rest2 =>
            if ident_start c2 then after_ident rest2
            else if no_value_start c2 then Malformed
            else Undecided
        end
      else if no_value_start c then Malformed
      else Undecided
  end.

(** What the code takes from outside: the coercion of a string to a number
    ([+s], ECMAScript's StringToNumber); the answer of the selector engine
    to [[name=${n}]] over the elements of a form for the names that
    [selector_class] leaves undecided ([None]: a syntax error); and what the
    [errors] store holds after the data has been set to [d], given what it
    held. *)
Class JsRuntime := {
  StringToNumber : string → number;
  selectUndecided : string → list Element → option (list Element);
  deriveErrors :
    gmap string JsValue → gmap string JsValue → gmap string JsValue
}.

(** [node.querySelectorAll(`[name=${n}]`)]: the elements inside the form
    that the selector picks, in tree order, or [None] when the selector is
    a syntax error and the call throws. *)
Definition querySelectorAll_name `{JsRuntime} (node : HTMLFormElement)
    (n : string) : option (list Element) :=
  match selector_class n with
  | ByName => Some (filter (λ el, name el = n) (descendants node))
  | Malformed => None
  | Undecided => selectUndecided n (descendants node)
  end.

(** [type.match(/^(number|range)$/)] *)
Definition matches_number_or_range (ty : string) : bool :=
  bool_decide (ty = "number") || bool_decide (ty = "range").

Definition addEventListener (ty : string) (l : Listener)
    (node : HTMLFormElement) : HTMLFormElement :=
  if bool_decide ((ty, l) ∈ listeners node) then node
  else {| elements := elements node; descendants := descendants node;
          listeners := listeners node ++ [(ty, l)] |}.

Definition removeEventListener (ty : string) (l : Listener)
    (node : HTMLFormElement) : HTMLFormElement :=
  {| elements := elements node; descendants := descendants node;
     listeners := filter (λ p, p ≠ (ty, l)) (listeners node) |}.

(** ** The stores and the configuration *)

(** The values held by the stores returned by [createStores], the callbacks
    subscribed to [errors], and the next unused reference. *)
Record Stores : Type := {
  isSubmitting : bool;
  data : gmap string JsValue;
  errors : gmap string JsValue;
  touched : gmap string bool;
  errors_subscribers : list ref;
  fresh : ref
}.

(** How the promise returned by [config.onSubmit] settles; a callback that
    throws before returning a promise is a rejection as far as the [await]
    inside [try] can tell. *)
Inductive Settlement : Type :=
  | Fulfilled
  | Rejected (e : JsValue)
  | Pending.

Inductive CallResult : Type :=
  | Returns
  | Throws (e : JsValue).

Record FormConfig : Type := {
  initialValues : option (gmap string JsValue);
  onSubmit : gmap string JsValue → Settlement;
  onError : option (JsValue → CallResult);
  useConstraintApi : option bool
}.

(** [config.useConstraintApi ??= false] *)
Definition constraintApi (config : FormConfig) : bool :=
  default false (useConstraintApi config).

(** What a run of [handleSubmit] does to the outside, in order. *)
Inductive Effect : Type :=
  | SetIsSubmitting (b : bool)
  | PreventDefault
  | UpdateTouched (t : gmap string bool)
  | ReadErrors
  | ReportValidity
  | CallOnSubmit (d : gmap string JsValue)
  | CallOnError (e : JsValue).

(** How a call ends: it returns, it throws, or (for the asynchronous
    [handleSubmit]) it stays suspended at an [await] that never settles. *)
Inductive Completion : Type :=
  | Completed
  | Thrown (e : JsValue)
  | Awaiting.

(** What a call gives back: a value, or the exception it threw. *)
Inductive Result (A : Type) : Type :=
  | Returned (a : A)
  | Threw (e : JsValue).
Arguments Returned {A} a.
Arguments Threw {A} e.

Definition isSubmitting_set (b : bool) (s : Stores) : Stores :=
  {| isSubmitting := b; data := data s; errors := errors s;
     touched := touched s; errors_subscribers := errors_subscribers s;
     fresh := fresh s |}.

(** [data.set(d)]: the data is [d], and the errors are what the stores
    derive from it. *)
Definition data_set `{JsRuntime} (d : gmap string JsValue) (s : Stores)
  : Stores :=
  {| isSubmitting := isSubmitting s; data := d;
     errors := deriveErrors d (errors s);
     touched := touched s; errors_subscribers := errors_subscribers s;
     fresh := fresh s |}.

Definition data_update `{JsRuntime}
    (f : gmap string JsValue → gmap string JsValue) (s : Stores) : Stores :=
  data_set (f (data s)) s.

Definition touched_update (f : gmap string bool → gmap string bool)
    (s : Stores) : Stores :=
  {| isSubmitting := isSubmitting s; data := data s; errors := errors s;
     touched := f (touched s); errors_subscribers := errors_subscribers s;
     fresh := fresh s |}.

(** Taking the next reference (a new array, a new closure, a new
    subscription). *)
Definition alloc (s : Stores) : ref * Stores :=
  (fresh s,
   {| isSubmitting := isSubmitting s; data := data s; errors := errors s;
      touched := touched s; errors_subscribers := errors_subscribers s;
      fresh := N.succ (fresh s) |}).

(** [errors.subscribe(f)] registers the callback and returns the handle
    that [unsubscribe] removes. *)
Definition errors_subscribe (s : Stores) : ref * Stores :=
  let '(r, s1) := alloc s in
  (r,
   {| isSubmitting := isSubmitting s1; data := data s1; errors := errors s1;
      touched := touched s1;
      errors_subscribers := errors_subscribers s1 ++ [r];
      fresh := fresh s1 |}).

Definition errors_unsubscribe (r : ref) (s : Stores) : Stores :=
  {| isSubmitting := isSubmitting s; data := data s; errors := errors s;
     touched := touched s;
     errors_subscribers := filter (λ x, x ≠ r) (errors_subscribers s);
     fresh := fresh s |}.

(** ** createForm *)

Section CreateForm.
Context `{JsRuntime}.
Variable config : FormConfig.

(** *** handleSubmit (lines 31-60) *)

(** [Object.keys(t).reduce((acc, key) => ({...acc, [key]: true}), t)] *)
Definition touch_all (t : gmap string bool) : gmap string bool :=
  fold_left (λ acc key, <[key := true]> acc) (Object_keys t) t.

(** [Object.keys(currentErrors).some((key) => !!currentErrors[key])] *)
Definition hasErrors (currentErrors : gmap string JsValue) : bool :=
  existsb (λ key, truthy (get_prop VUndefined currentErrors key))
          (Object_keys currentErrors).

(** The [try] block: the stores after it, what it did, how it ended.
    [event.target.reportValidity()] is a TypeError when the target is
    missing or has no such method. *)
Definition submit_try (event : Event) (s : Stores)
  : Stores * list Effect * Completion :=
  let s1 := isSubmitting_set true s in
  let s2 := touched_update touch_all s1 in
  let currentErrors := errors s2 in
  let before := [SetIsSubmitting true; PreventDefault;
                 UpdateTouched (touched s2); ReadErrors] in
  if hasErrors currentErrors then
    if constraintApi config then
      if has_reportValidity (target event)
      then (s2, before ++ [ReportValidity], Completed)
      else (s2, before, Thrown TypeError)
    else (s2, before, Completed)
  else
    let d := data s2 in
    (s2, before ++ [CallOnSubmit d],
     match onSubmit config d with
     | Fulfilled => Completed
     | Rejected e => Thrown e
     | Pending => Awaiting
     end).

(** The [catch] block. *)
Definition submit_catch (e : JsValue) : list Effect * Completion :=
  match onError config with
  | None => ([], Thrown e)
  | Some handler =>
      ([CallOnError e],
       match handler e with
       | Returns => Completed
       | Throws e' => Thrown e'
       end)
  end.

(** The [finally] block. *)
Definition submit_finally (s : Stores) : Stores * list Effect :=
  (isSubmitting_set false s, [SetIsSubmitting false]).

Definition handleSubmit (event : Event) (s : Stores)
  : Stores * list Effect * Completion :=
  let '(s1, tr1, c1) := submit_try event s in
  match c1 with
  | Awaiting => (s1, tr1, Awaiting)
  | Completed =>
      let '(s2, tr2) := submit_finally s1 in (s2, tr1 ++ tr2, Completed)
  | Thrown e =>
      let '(tr2, c2) := submit_catch e in
      let '(s3, tr3) := submit_finally s1 in
      (s3, tr1 ++ tr2 ++ tr3, c2)
  end.

(** *** newDataSet (lines 62-74) *)

(** [config.initialValues[key]]: a TypeError when there are no initial
    values. *)
Definition initialValue (key : string) : JsValue + JsValue :=
  match initialValues config with
  | Some iv => inl (js_read iv key)
  | None => inr TypeError
  end.

(** One round of the [reduce] over the untouched keys; [inr] once a
    callback has thrown. *)
Definition reconcile (values : gmap string JsValue)
    (acc : gmap string bool + JsValue) (key : string)
  : gmap string bool + JsValue :=
  match acc with
  | inr e => inr e
  | inl a =>
      match initialValue key with
      | inl v0 => inl (<[key := strict_neq (js_read values key) v0]> a)
      | inr e => inr e
      end
  end.

Definition untouchedKeys (current : gmap string bool) : list string :=
  List.filter (λ key, negb (get_prop false current key))
              (Object_keys current).

(** A store is left as it was when its updater throws. *)
Definition newDataSet (values : gmap string JsValue) (s : Stores)
  : Stores * Completion :=
  match fold_left (reconcile values) (untouchedKeys (touched s))
                  (inl (touched s)) with
  | inl t => (data_set values (touched_update (λ _, t) s), Completed)
  | inr e => (s, Thrown e)
  end.

(** *** setFormFieldsDefaultValues (lines 76-105) *)

(** [type.match(/^(number|range)$/) ? +value : value] *)
Definition fieldValue (ty raw : string) : JsValue :=
  if matches_number_or_range ty then VNumber (StringToNumber raw)
  else VString raw.

(** The body of the loop over [node.elements], on the stores and the
    local [defaultData]; [inr] once the loop has been left by a throw, with
    the stores as they were then. *)
Definition defaultValue_step (node : HTMLFormElement)
    (acc : Stores * gmap string JsValue + Stores * JsValue) (el : Element)
  : Stores * gmap string JsValue + Stores * JsValue :=
  match acc with
  | inr thrown => inr thrown
  | inl (s, defaultData) =>
      if (negb (isInputElement (Some el))
          && negb (isTextAreaElement (Some el)))
         || bool_decide (name el = "")
      then inl (s, defaultData)
      else
        let s := touched_update (λ t, <[name el := false]> t) s in
        if isInputElement (Some el) && bool_decide (type el = "checkbox") then
          if is_undefined (js_read defaultData (name el)) then
            match querySelectorAll_name node (name el) with
            | None => inr (s, SyntaxError)
            | Some checkboxes =>
                if bool_decide (length checkboxes = 1%nat) then
                  inl (s, assign_prop defaultData (name el)
                            (VBool (checked el)))
                else
                  let '(r, s) := alloc s in
                  inl (s, assign_prop defaultData (name el)
                            (VArray r (if checked el then [value el]
                                       else [])))
            end
          else
            match js_read defaultData (name el) with
            | VArray r items =>
                if checked el
                then inl (s, <[name el := VArray r (items ++ [value el])]>
                               defaultData)
                else inl (s, defaultData)
            | _ => inl (s, defaultData)
            end
        else if isInputElement (Some el) && bool_decide (type el = "radio")
                && checked el then
          inl (s, assign_prop defaultData (name el) (VString (value el)))
        else
          inl (s, assign_prop defaultData (name el)
                    (fieldValue (type el) (value el)))
  end.

Definition setFormFieldsDefaultValues (node : HTMLFormElement) (s : Stores)
  : Stores * Completion :=
  match fold_left (defaultValue_step node) (elements node) (inl (s, ∅)) with
  | inl (s', defaultData) => (data_set defaultData s', Completed)
  | inr (s', e) => (s', Thrown e)
  end.

(** *** The handlers installed by form (lines 110-161) *)

Definition setCheckboxValues (node : HTMLFormElement) (target : Element)
    (s : Stores) : Stores * Completion :=
  match querySelectorAll_name node (name target) with
  | None => (s, Thrown SyntaxError)
  | Some checkboxes =>
      if bool_decide (length checkboxes = 1%nat) then
        (data_update (λ d, <[name target := VBool (checked target)]> d) s,
         Completed)
      else
        let '(r, s) := alloc s in
        (data_update
           (λ d, <[name target :=
                     VArray r (map value (List.filter checked checkboxes))]> d)
           s,
         Completed)
  end.

Definition setRadioValues (node : HTMLFormElement) (target : Element)
    (s : Stores) : Stores * Completion :=
  match querySelectorAll_name node (name target) with
  | None => (s, Thrown SyntaxError)
  | Some radios =>
      let checkedRadio :=
        List.find (λ el, isInputElement (Some el) && checked el) radios in
      (data_update
         (λ d, <[name target :=
                   match checkedRadio with
                   | Some el => VString (value el)
                   | None => VUndefined
                   end]> d) s,
       Completed)
  end.

Definition handleInput (node : HTMLFormElement) (e : Event) (s : Stores)
  : Stores :=
  if negb (isInputElement (target e)) && negb (isTextAreaElement (target e))
  then s
  else
    match target e with
    | None => s
    | Some el =>
        if bool_decide (type el = "checkbox") || bool_decide (type el = "radio")
        then s
        else if bool_decide (name el = "") then s
        else
          let s := touched_update (λ current, <[name el := true]> current) s in
          data_update
            (λ d, <[name el := fieldValue (type el) (value el)]> d) s
    end.

Definition handleChange (node : HTMLFormElement) (e : Event) (s : Stores)
  : Stores * Completion :=
  if negb (isInputElement (target e)) then (s, Completed)
  else
    match target e with
    | None => (s, Completed)
    | Some el =>
        if bool_decide (name el = "") then (s, Completed)
        else
          let s := touched_update (λ current, <[name el := true]> current) s in
          let '(s, boxes) :=
            if bool_decide (type el = "checkbox")
            then setCheckboxValues node el s else (s, Completed) in
          match boxes with
          | Completed =>
              if bool_decide (type el = "radio")
              then setRadioValues node el s else (s, Completed)
          | thrown => (s, thrown)
          end
    end.

Definition handleBlur (node : HTMLFormElement) (e : Event) (s : Stores)
  : Stores :=
  if negb (isInputElement (target e)) && negb (isTextAreaElement (target e))
  then s
  else
    match target e with
    | None => s
    | Some el =>
        if bool_decide (name el = "") then s
        else touched_update (λ current, <[name el := true]> current) s
    end.


(** *** form and destroy (lines 107-186) *)

(** What the closure returned by [form] remembers. *)
Record Binding : Type := {
  binding_id : ref;
  unsubscribeErrors : option ref
}.

(** The stores and the form element after the call, and the object with
    [destroy] when the call returns one. *)
Definition form (node : HTMLFormElement) (s : Stores)
  : Stores * HTMLFormElement * Result Binding :=
  match setFormFieldsDefaultValues node s with
  | (s, Thrown e) => (s, node, Threw e)
  | (s, _) =>
      let '(b, s) := alloc s in
      let node := addEventListener "input" (HandleInput b) node in
      let node := addEventListener "change" (HandleChange b) node in
      let node := addEventListener "focusout" (HandleBlur b) node in
      let node := addEventListener "submit" HandleSubmit node in
      if constraintApi config then
        let '(u, s) := errors_subscribe s in
        (s, node,
         Returned {| binding_id := b; unsubscribeErrors := Some u |})
      else
        (s, node, Returned {| binding_id := b; unsubscribeErrors := None |})
  end.

Definition destroy (bnd : Binding) (node : HTMLFormElement) (s : Stores)
  : Stores * HTMLFormElement :=
  let b := binding_id bnd in
  let node := removeEventListener "input" (HandleInput b) node in
  let node := removeEventListener "change" (HandleChange b) node in
  let node := removeEventListener "foucsout" (HandleBlur b) node in
  let node := removeEventListener "submit" HandleSubmit node in
  match unsubscribeErrors bnd with
  | Some u => (errors_unsubscribe u s, node)
  | None => (s, node)
  end.

(** Delivering an event of type [ty] to the form: every listener
    registered for [ty] runs, in registration order; an exception of a
    listener is reported and the next listener runs. *)
Definition run_listener (node : HTMLFormElement) (e : Event)
    (s : Stores) (l : Listener) : Stores :=
  match l with
  | HandleInput _ => handleInput node e s
  | HandleChange _ => (handleChange node e s).1
  | HandleBlur _ => handleBlur node e s
  | HandleSubmit => (handleSubmit e s).1.1
  end.

Definition dispatchEvent (ty : string) (node : HTMLFormElement) (e : Event)
    (s : Stores) : Stores :=
  fold_left (run_listener node e)
            (List.filter (λ p, bool_decide (p.1 = ty)) (listeners node)).*2 s.

End CreateForm.

(** The arguments [config.onSubmit] and [config.onError] were called with,
    in order. *)
Definition onSubmit_calls (tr : list Effect) : list (gmap string JsValue) :=
  omap (λ ef, match ef with CallOnSubmit d => Some d | _ => None end) tr.


(** The controls the snapshot and the handlers look at: an input or a
    textarea with a name. *)
Definition is_field (el : Element) : bool :=
  (isInputElement (Some el) || isTextAreaElement (Some el))
  && negb (bool_decide (name el = "")).


Definition field_names (l : list Element) : list string :=
  map name (List.filter is_field l).

(** The stores of the loop of the snapshot, left by a throw or not. *)
Definition loop_stores (acc : Stores * gmap string JsValue + Stores * JsValue)
  : Stores :=
  match acc with
  | inl (s, _) => s
  | inr (s, _) => s
  end.

(** [record.a.b...] from the top of a record. *)
Definition record_get_path (d : gmap string JsValue) (path : list string)
  : JsValue :=
  match path with
  | [] => VUndefined
  | key :: rest => get_path (get_prop VUndefined d key) rest
  end.

(** ** Sample forms *)

Definition input (n ty v : string) (c : bool) : Element :=
  {| nodeName := "INPUT"; name := n; type := ty; value := v; checked := c |}.

(** A form whose controls are the elements inside it that matter. *)
Definition form_of (controls : list Element) : HTMLFormElement :=
  {| elements := controls; descendants := controls; listeners := [] |}.

Definition no_stores : Stores :=
  {| isSubmitting := false; data := ∅; errors := ∅; touched := ∅;
     errors_subscribers := []; fresh := 0%N |}.

(** The file input of the sign-up form of the tests, on its own. *)
Definition picture_form : HTMLFormElement :=
  form_of [input "profile.picture" "file" "" false].

(** A runtime for the examples.  Its coercion reads the strings of decimal
    digits and the empty string (which is 0), and answers not-a-number
    elsewhere; the examples use it on such strings and on strings that have
    no numeric reading at all.  No example has a name that the selector
    engine would have to decide, and the errors stay as they are when the
    data is set, as with no validator. *)
Fixpoint digits_value (s : string) (acc : N) : option N :=
  match s with
  | EmptyString => Some acc
  | String c s' =>
      let code := Ascii.N_of_ascii c in
      if (48 <=? code)%N && (code <=? 57)%N
      then digits_value s' (acc * 10 + (code - 48))%N
      else None
  end.

Definition sample_runtime : JsRuntime :=
  {| StringToNumber := λ s,
       match digits_value s 0%N with
       | Some n => Finite (Q2Qc (inject_Z (Z.of_N n)))
       | None => NaN
       end;
     selectUndecided := λ _ _, None;
     deriveErrors := λ _ errs, errs |}.

(** The log-in form of the tests (without its fieldset): two text-like
    inputs and a submit button without a name. *)
Definition email_input : Element := input "email" "email" "" false.

Definition login_form : HTMLFormElement :=
  form_of [email_input; input "password" "password" "" false;
           input "" "submit" "" false].

(** Two boxes named [preferences], the first one checked, a box on its
    own, and two numeric inputs, one of them holding no number. *)
Definition technology : Element :=
  input "preferences" "checkbox" "technology" true.
Definition films : Element := input "preferences" "checkbox" "films" false.
Definition showPassword : Element := input "showPassword" "checkbox" "on" true.
Definition age : Element := input "age" "number" "42" false.
Definition volume : Element := input "volume" "range" "loud" false.

Definition signup_form : HTMLFormElement :=
  form_of [technology; films; showPassword; age; volume].









Definition submit_event : Event := {| target := None |}.



(** Callbacks: one that succeeds, one whose promise is rejected. *)
Definition plain_config : FormConfig :=
  {| initialValues := None; onSubmit := λ _, Fulfilled; onError := None;
     useConstraintApi := None |}.




(** Stores of a form bound to [login_form], with the errors a validator
    may have left: an error on the email nested under [account], and the
    same shape with an empty message. *)
Definition with_errors (errs : gmap string JsValue) : Stores :=
  {| isSubmitting := false;
     data := {[ "email" := VString ""; "password" := VString "" ]};
     errors := errs;
     touched := {[ "email" := false; "password" := true ]};
     errors_subscribers := []; fresh := 1%N |}.

Definition nested_error : gmap string JsValue :=
  {[ "account" := VObject 0%N [("email", VString "Not email")] ]}.

Definition nested_no_error : gmap string JsValue :=
  {[ "account" := VObject 0%N [("email", VString "")] ]}.



Definition bio : Element :=
  {| nodeName := "TEXTAREA"; name := "bio"; type := "textarea";
     value := "hello"; checked := false |}.

Definition country : Element :=
  {| nodeName := "SELECT"; name := "country"; type := "select-one";
     value := "pl"; checked := false |}.

Definition profile_form : HTMLFormElement :=
  form_of [email_input; bio; country; input "" "submit" "" false].

(** A form whose initial value for [age] is not-a-number, and its stores
    before the user has touched anything. *)
Definition nan_values : gmap string JsValue := {[ "age" := VNumber NaN ]}.

Definition nan_config : FormConfig :=
  {| initialValues := Some nan_values; onSubmit := λ _, Fulfilled;
     onError := None; useConstraintApi := None |}.

Definition nan_stores : Stores :=
  {| isSubmitting := false; data := nan_values; errors := ∅;
     touched := {[ "age" := false ]}; errors_subscribers := [];
     fresh := 0%N |}.




(** * Properties *)
(** ** Objects as maps *)

Lemma elem_of_Object_keys {A} (o : gmap string A) (key : string) :
  key ∈ Object_keys o ↔ is_Some (o !! key).
Proof.
  unfold Object_keys. rewrite list_elem_of_fmap. split.
  - intros [[k v] [-> Hin]]. apply elem_of_map_to_list in Hin. eauto.
  - intros [v Hv]. exists (key, v). split; [done|].
    by apply elem_of_map_to_list.
Qed.

Lemma fold_insert_true_lookup (l : list string) (acc : gmap string bool)
    (k : string) :
  fold_left (λ a key, <[key := true]> a) l acc !! k
  = if decide (k ∈ l) then Some true else acc !! k.
Proof.
  revert acc. induction l as [|x l IH]; intros acc; cbn [fold_left].
  - rewrite decide_False; [done | apply not_elem_of_nil].
  - rewrite IH. destruct (decide (k ∈ l)) as [Hin|Hin].
    + rewrite decide_True; [done | by right].
    + destruct (decide (x = k)) as [->|Hne].
      * rewrite decide_True; [|by left]. apply lookup_insert_eq.
      * rewrite decide_False; [by apply lookup_insert_ne|].
        intros [?|?]%elem_of_cons; congruence.
Qed.

Lemma touch_all_lookup (t : gmap string bool) (k : string) :
  touch_all t !! k = (λ _, true) <$> t !! k.
Proof.
  unfold touch_all. rewrite fold_insert_true_lookup.
  case_decide as Hk.
  - apply elem_of_Object_keys in Hk as [b ->]. done.
  - destruct (t !! k) eqn:E; [|done].
    exfalso. apply Hk, elem_of_Object_keys. eauto.
Qed.

Lemma hasErrors_true (errs : gmap string JsValue) :
  hasErrors errs = true ↔ ∃ key v, errs !! key = Some v ∧ truthy v = true.
Proof.
  unfold hasErrors. rewrite existsb_exists. split.
  - intros [key [Hin Ht]]. apply list_elem_of_In, elem_of_Object_keys in Hin.
    destruct Hin as [v Hv]. exists key, v. split; [done|].
    unfold get_prop in Ht. by rewrite Hv in Ht.
  - intros (key & v & Hv & Ht). exists key. split.
    + apply list_elem_of_In, elem_of_Object_keys. eauto.
    + unfold get_prop. by rewrite Hv.
Qed.

Lemma hasErrors_false (errs : gmap string JsValue) :
  hasErrors errs = false ↔ ∀ key v, errs !! key = Some v → truthy v = false.
Proof.
  split.
  - intros Hf key v Hv. destruct (truthy v) eqn:Ht; [|done].
    assert (hasErrors errs = true) by (apply hasErrors_true; eauto).
    congruence.
  - intros Hall. destruct (hasErrors errs) eqn:E; [|done].
    apply hasErrors_true in E as (key & v & Hv & Ht).
    rewrite (Hall _ _ Hv) in Ht. done.
Qed.

(** An object is truthy whatever it holds, so a truthy leaf at any depth
    makes the property it hangs from truthy. *)
Lemma has_truthy_leaf_truthy (v : JsValue) :
  has_truthy_leaf v = true → truthy v = true.
Proof. destruct v; simpl; auto. Qed.

Lemma has_truthy_leaf_in_hasErrors (errs : gmap string JsValue) :
  has_truthy_leaf_in errs = true → hasErrors errs = true.
Proof.
  unfold has_truthy_leaf_in, hasErrors. rewrite !existsb_exists.
  intros [key [Hin Hl]]. exists key. split; [done|].
  by apply has_truthy_leaf_truthy.
Qed.

(** ** The submit handler *)

(** Case analysis along the branches of [handleSubmit]: blocked by errors
    (the constraint API off, or on with a target that can report or one
    that cannot, which throws), or the callback's promise fulfilled,
    rejected or never settled; a throw goes to an [onError], which returns
    or throws, or to the caller. *)
Ltac submit_cases config :=
  unfold handleSubmit, submit_try, submit_catch, submit_finally;
  cbn [fst snd errors data touched isSubmitting touched_update
       isSubmitting_set];
  let Hb := fresh "Hb" in
  let Ha := fresh "Ha" in
  let Hv := fresh "Hv" in
  let Hs := fresh "Hs" in
  let Hh := fresh "Hh" in
  let Hr := fresh "Hr" in
  destruct (hasErrors _) eqn:Hb;
  [ destruct (constraintApi config) eqn:Ha;
    [ destruct (has_reportValidity _) eqn:Hv;
      [ | destruct (onError config) as [?handler|] eqn:Hh;
          [ destruct (handler _) eqn:Hr | ] ] | ]
  | destruct (onSubmit config _) eqn:Hs;
    [ | destruct (onError config) as [?handler|] eqn:Hh;
        [ destruct (handler _) eqn:Hr | ] | ] ];
  cbn [fst snd errors data touched isSubmitting app].

Section Submit.
Variable config : FormConfig.
Variable event : Event.
Variable s : Stores.

Lemma handleSubmit_touched (k : string) :
  touched (handleSubmit config event s).1.1 !! k
  = (λ _, true) <$> touched s !! k.
Proof. submit_cases config; apply touch_all_lookup. Qed.

Lemma handleSubmit_data : data (handleSubmit config event s).1.1 = data s.
Proof. submit_cases config; done. Qed.


End Submit.

(** C1 (as the code has it): the submit callback is called, once and with
    the current data, exactly when no property of the errors object is
    truthy; a nested object is truthy whatever its leaves are, so any truthy
    leaf blocks the call.  In every case all touched entries are set to true,
    and that update comes right before the errors are read. *)
Theorem handleSubmit_guard (config : FormConfig) (event : Event) (s : Stores) :
  let r := handleSubmit config event s in
  (onSubmit_calls r.1.2 = [data s]
   ↔ ∀ key v, errors s !! key = Some v → truthy v = false)
  ∧ (onSubmit_calls r.1.2 = []
     ↔ ∃ key v, errors s !! key = Some v ∧ truthy v = true)
  ∧ (has_truthy_leaf_in (errors s) = true → onSubmit_calls r.1.2 = [])
  ∧ (∀ k, touched r.1.1 !! k = (λ _, true) <$> touched s !! k)
  ∧ ∃ pre post,
      r.1.2 = pre ++ UpdateTouched (touched r.1.1) :: ReadErrors :: post.
Proof.
  intros r.
  assert (Hcalls : onSubmit_calls r.1.2
                   = if hasErrors (errors s) then [] else [data s]).
  { subst r. submit_cases config; reflexivity. }
  split; [|split; [|split; [|split]]].
  - rewrite Hcalls, <- hasErrors_false. by destruct (hasErrors _).
  - rewrite Hcalls, <- hasErrors_true. by destruct (hasErrors _).
  - intros Hl%has_truthy_leaf_in_hasErrors. by rewrite Hcalls, Hl.
  - apply handleSubmit_touched.
  - exists [SetIsSubmitting true; PreventDefault].
    subst r. submit_cases config; eexists; reflexivity.
Qed.



(** ** Strict equality *)

(** [===] as the code computes it is strict equality as the language
    defines it. *)
Lemma strict_eq_spec (a b : JsValue) :
  strict_eq a b = true ↔ strictly_equal a b.
Proof.
  split.
  - destruct a as [| |x|x|x|r l|r l|m], b as [| |y|y|y|r' l'|r' l'|m'];
      cbn; try discriminate; intros Heq;
      try (destruct x as [|x|p], y as [|y|q]; cbn in Heq; try discriminate);
      try (apply bool_decide_eq_true in Heq; subst); constructor.
  - intros Heq. destruct Heq; cbn; by rewrite ?bool_decide_eq_true_2.
Qed.

Lemma strict_neq_spec (a b : JsValue) :
  strict_neq a b = true ↔ ¬ strictly_equal a b.
Proof.
  unfold strict_neq. rewrite <- strict_eq_spec.
  destruct (strict_eq a b); cbn; split; try done; intros Hn; by exfalso.
Qed.

(** [v !== v] holds for not-a-number only. *)
Lemma strict_neq_self (v : JsValue) :
  strict_neq v v = true ↔ v = VNumber NaN.
Proof.
  rewrite strict_neq_spec. split.
  - intros Hne. destruct v as [| |b|n|x|r l|r l|m];
      try (exfalso; apply Hne; constructor).
    destruct n as [|b|q]; [done|..]; exfalso; apply Hne; constructor.
  - intros -> Heq. inversion Heq.
Qed.

(** A read through the prototype gives not-a-number only when the own
    property is. *)
Lemma js_read_NaN (o : gmap string JsValue) (k : string) :
  js_read o k = VNumber NaN ↔ get_prop VUndefined o k = VNumber NaN.
Proof.
  unfold js_read, get_prop. destruct (o !! k); cbn; [done|].
  by destruct (inherited k).
Qed.

(** ** The overridden [data.set] *)

Section NewDataSet.
Context `{JsRuntime}.
Variable config : FormConfig.
Variable values : gmap string JsValue.

Lemma elem_of_untouchedKeys (current : gmap string bool) (k : string) :
  k ∈ untouchedKeys current ↔ current !! k = Some false.
Proof.
  unfold untouchedKeys. rewrite list_elem_of_In, filter_In.
  rewrite <- list_elem_of_In, elem_of_Object_keys. unfold get_prop. split.
  - intros [[b Hb] Hn]. rewrite Hb in Hn |- *. by destruct b.
  - intros ->. eauto.
Qed.

Lemma untouchedKeys_nil (t : gmap string bool) :
  (∀ k b, t !! k = Some b → b = true) → untouchedKeys t = [].
Proof.
  intros Hall. destruct (untouchedKeys t) as [|k l] eqn:E; [done|].
  assert (Hk : k ∈ untouchedKeys t) by (rewrite E; by left).
  apply elem_of_untouchedKeys, Hall in Hk. done.
Qed.

Lemma fold_reconcile_thrown (l : list string) (e : JsValue) :
  fold_left (reconcile config values) l (inr e) = inr e.
Proof. induction l as [|x l IH]; [done|]. apply IH. Qed.

Lemma fold_reconcile_absent (l : list string) (a : gmap string bool) :
  initialValues config = None → l ≠ [] →
  fold_left (reconcile config values) l (inl a) = inr TypeError.
Proof.
  intros Hi Hl. destruct l as [|x l]; [done|].
  cbn [fold_left]. unfold reconcile at 2, initialValue. rewrite Hi.
  apply fold_reconcile_thrown.
Qed.

Lemma fold_reconcile_present (iv : gmap string JsValue) (l : list string)
    (a : gmap string bool) :
  initialValues config = Some iv →
  ∃ t, fold_left (reconcile config values) l (inl a) = inl t
       ∧ ∀ k, t !! k
              = if decide (k ∈ l)
                then Some (strict_neq (js_read values k) (js_read iv k))
                else a !! k.
Proof.
  intros Hi. revert a. induction l as [|x l IH]; intros a.
  - exists a. split; [done|]. intros k.
    rewrite decide_False; [done | apply not_elem_of_nil].
  - cbn [fold_left]. unfold reconcile at 2, initialValue. rewrite Hi.
    destruct (IH (<[x := strict_neq (js_read values x) (js_read iv x)]> a))
      as (t & Ht & Hk).
    exists t. split; [done|]. intros k. rewrite Hk.
    destruct (decide (k ∈ l)) as [Hin|Hin].
    + rewrite decide_True; [done | by right].
    + destruct (decide (x = k)) as [->|Hne].
      * rewrite decide_True; [|by left]. apply lookup_insert_eq.
      * rewrite decide_False; [by apply lookup_insert_ne|].
        intros [?|?]%elem_of_cons; congruence.
Qed.

(** With initial values the updater of [touched] does not throw. *)
Lemma newDataSet_present (iv : gmap string JsValue) (s : Stores) :
  initialValues config = Some iv →
  ∃ t, newDataSet config values s
       = (data_set values (touched_update (λ _, t) s), Completed)
       ∧ ∀ k, t !! k
              = if decide (k ∈ untouchedKeys (touched s))
                then Some (strict_neq (js_read values k) (js_read iv k))
                else touched s !! k.
Proof.
  intros Hi. unfold newDataSet.
  destruct (fold_reconcile_present iv (untouchedKeys (touched s))
              (touched s) Hi) as (t & -> & Hk).
  eauto.
Qed.

End NewDataSet.


(** C10: without initial values, [data.set] throws as soon as one touched
    entry is false, and leaves the stores as they were; it returns normally
    exactly when initial values were configured or no entry is false. *)
Theorem newDataSet_without_initialValues `{JsRuntime} (config : FormConfig)
    (values : gmap string JsValue) (s : Stores) :
  (initialValues config = None →
   (∃ k, touched s !! k = Some false) →
   newDataSet config values s = (s, Thrown TypeError))
  ∧ ((newDataSet config values s).2 = Completed
     ↔ is_Some (initialValues config)
       ∨ ∀ k b, touched s !! k = Some b → b = true).
Proof.
  assert (Hthrow : initialValues config = None →
                   (∃ k, touched s !! k = Some false) →
                   newDataSet config values s = (s, Thrown TypeError)).
  { intros Hi [k Hk]. unfold newDataSet.
    rewrite fold_reconcile_absent; [done | done |].
    intros Hnil. apply elem_of_untouchedKeys in Hk.
    rewrite Hnil in Hk. by apply elem_of_nil in Hk. }
  split; [done|]. split.
  - intros Hc. destruct (initialValues config) as [iv|] eqn:Hi; [left; eauto|].
    right. intros k b Hk. destruct b; [done|].
    rewrite Hthrow in Hc by eauto. done.
  - intros [[iv Hi]|Hall].
    + by destruct (newDataSet_present config values iv s Hi) as (t & -> & _).
    + unfold newDataSet. by rewrite untouchedKeys_nil.
Qed.

(** ** Focus lost, and a change of a control that is not a box *)

(** C9: a focusout on a named input or textarea sets the field's touched
    entry to true and leaves the data alone; so does a change event on a
    named input that is neither a checkbox nor a radio button, and the
    handler returns. *)
Theorem blur_and_plain_change_touch_only `{JsRuntime} (node : HTMLFormElement)
    (el : Element) (s : Stores) :
  name el ≠ "" →
  (nodeName el = "INPUT" ∨ nodeName el = "TEXTAREA" →
   let s' := handleBlur node {| target := Some el |} s in
   touched s' = <[name el := true]> (touched s) ∧ data s' = data s)
  ∧ (nodeName el = "INPUT" → type el ≠ "checkbox" → type el ≠ "radio" →
     let s' := (handleChange node {| target := Some el |} s).1 in
     touched s' = <[name el := true]> (touched s) ∧ data s' = data s
     ∧ (handleChange node {| target := Some el |} s).2 = Completed).
Proof.
  intros Hn. split.
  - intros Hk. unfold handleBlur, isInputElement, isTextAreaElement.
    cbn [target]. rewrite (bool_decide_eq_false_2 _ Hn).
    destruct Hk as [Hk|Hk]; rewrite (bool_decide_eq_true_2 _ Hk);
      [|rewrite andb_false_r]; done.
  - intros Hk Hc Hr. unfold handleChange, isInputElement. cbn [target].
    rewrite (bool_decide_eq_true_2 _ Hk), (bool_decide_eq_false_2 _ Hn),
      (bool_decide_eq_false_2 _ Hc), (bool_decide_eq_false_2 _ Hr). done.
Qed.

(** ** Listeners *)

Lemma elem_of_addEventListener (ty : string) (l : Listener)
    (node : HTMLFormElement) (p : string * Listener) :
  p ∈ listeners (addEventListener ty l node)
  ↔ p = (ty, l) ∨ p ∈ listeners node.
Proof.
  unfold addEventListener. case_bool_decide as Hin; cbn.
  - split; [intros ?; by right | intros [->|?]; done].
  - rewrite elem_of_app, list_elem_of_singleton. tauto.
Qed.

Lemma elem_of_removeEventListener (ty : string) (l : Listener)
    (node : HTMLFormElement) (p : string * Listener) :
  p ∈ listeners (removeEventListener ty l node)
  ↔ p ≠ (ty, l) ∧ p ∈ listeners node.
Proof.
  unfold removeEventListener. cbn.
  exact (list_elem_of_filter (λ q, q ≠ (ty, l)) (listeners node) p).
Qed.

Lemma elem_of_errors_subscribe (s : Stores) (u : ref) :
  u ∈ errors_subscribers (errors_subscribe s).2
  ↔ u = (errors_subscribe s).1 ∨ u ∈ errors_subscribers s.
Proof.
  unfold errors_subscribe, alloc. cbn.
  rewrite elem_of_app, list_elem_of_singleton. tauto.
Qed.

Lemma addEventListener_new (ty : string) (l : Listener)
    (node : HTMLFormElement) :
  (ty, l) ∉ listeners node →
  listeners (addEventListener ty l node) = listeners node ++ [(ty, l)].
Proof.
  intros Hnew. unfold addEventListener.
  by rewrite (bool_decide_eq_false_2 _ Hnew).
Qed.

Lemma addEventListener_elements (ty : string) (l : Listener)
    (node : HTMLFormElement) :
  elements (addEventListener ty l node) = elements node.
Proof. unfold addEventListener. by case_bool_decide. Qed.

Section Binding.
Context `{JsRuntime}.
Variable config : FormConfig.

(** The snapshot returns or throws; it awaits nothing. *)
Lemma snapshot_completion (node : HTMLFormElement) (s : Stores) :
  (setFormFieldsDefaultValues node s).2 = Completed
  ∨ ∃ e, (setFormFieldsDefaultValues node s).2 = Thrown e.
Proof.
  unfold setFormFieldsDefaultValues.
  destruct (fold_left _ _ _) as [[s' d]|[s' e]]; cbn; eauto.
Qed.

(** What [form] has done when it returns. *)
Lemma form_returned (node : HTMLFormElement) (s : Stores) (bnd : Binding) :
  (form config node s).2 = Returned bnd →
  (setFormFieldsDefaultValues node s).2 = Completed
  ∧ binding_id bnd = fresh (setFormFieldsDefaultValues node s).1
  ∧ (form config node s).1.2
    = addEventListener "submit" HandleSubmit
        (addEventListener "focusout" (HandleBlur (binding_id bnd))
           (addEventListener "change" (HandleChange (binding_id bnd))
              (addEventListener "input" (HandleInput (binding_id bnd))
                 node)))
  ∧ touched (form config node s).1.1
    = touched (setFormFieldsDefaultValues node s).1
  ∧ data (form config node s).1.1
    = data (setFormFieldsDefaultValues node s).1
  ∧ (binding_id bnd < fresh (form config node s).1.1)%N
  ∧ (if constraintApi config
     then ∃ u, unsubscribeErrors bnd = Some u
               ∧ errors_subscribers (form config node s).1.1
                 = errors_subscribers (setFormFieldsDefaultValues node s).1
                   ++ [u]
     else unsubscribeErrors bnd = None
          ∧ errors_subscribers (form config node s).1.1
            = errors_subscribers (setFormFieldsDefaultValues node s).1).
Proof.
  destruct (snapshot_completion node s) as [Hc|[e Hc]]; revert Hc;
    unfold form; destruct (setFormFieldsDefaultValues node s) as [s0 c];
    cbn [snd]; intros ->; [|done].
  unfold errors_subscribe, alloc.
  destruct (constraintApi config);
    cbn [fst snd binding_id unsubscribeErrors errors_subscribers fresh
         touched data];
    intros [= <-]; cbn [binding_id unsubscribeErrors];
    repeat split; eauto; lia.
Qed.

(** When the snapshot throws, [form] throws, and the form element is as
    it was. *)
Lemma form_threw (node : HTMLFormElement) (s : Stores) (e : JsValue) :
  (form config node s).2 = Threw e →
  (form config node s).1.2 = node
  ∧ setFormFieldsDefaultValues node s = ((form config node s).1.1, Thrown e).
Proof.
  unfold form. destruct (setFormFieldsDefaultValues node s) as [s0 [|e'|]];
    cbn; try (destruct (constraintApi config); cbn; discriminate).
  by intros [= ->].
Qed.

End Binding.

(** C2 (what the code does): [form] attaches the four listeners, and
    [destroy] detaches those for input, change and submit and cancels the
    subscription to the errors, but the listener for focusout stays on the
    form: [destroy] asks to remove it from the event type "foucsout". *)
Theorem destroy_leaves_focusout_listener `{JsRuntime} (config : FormConfig)
    (node : HTMLFormElement) (s : Stores) (bnd : Binding) :
  let bound := form config node s in
  bound.2 = Returned bnd →
  let b := binding_id bnd in
  let destroyed := destroy bnd bound.1.2 bound.1.1 in
  (("input", HandleInput b) ∈ listeners (bound.1.2)
   ∧ ("change", HandleChange b) ∈ listeners (bound.1.2)
   ∧ ("focusout", HandleBlur b) ∈ listeners (bound.1.2)
   ∧ ("submit", HandleSubmit) ∈ listeners (bound.1.2))
  ∧ ("focusout", HandleBlur b) ∈ listeners (destroyed.2)
  ∧ (("input", HandleInput b) ∉ listeners (destroyed.2))
  ∧ (("change", HandleChange b) ∉ listeners (destroyed.2))
  ∧ (("submit", HandleSubmit) ∉ listeners (destroyed.2))
  ∧ (constraintApi config = true →
     ∃ u, unsubscribeErrors bnd = Some u
          ∧ u ∈ errors_subscribers (bound.1.1)
          ∧ u ∉ errors_subscribers (destroyed.1)).
Proof.
  intros bound Hret b destroyed. subst destroyed b bound.
  destruct (form_returned config node s bnd Hret)
    as (_ & _ & Hnode & _ & _ & _ & Hsub).
  rewrite Hnode. unfold destroy.
  assert (Hn : ∀ st : HTMLFormElement,
            (match unsubscribeErrors bnd with
             | Some u => (errors_unsubscribe u (form config node s).1.1, st)
             | None => ((form config node s).1.1, st)
             end).2 = st) by (intros; by destruct (unsubscribeErrors _)).
  rewrite !Hn.
  repeat rewrite elem_of_removeEventListener.
  repeat rewrite elem_of_addEventListener.
  split; [tauto|]. split; [repeat split; try done; tauto|].
  split; [intros (_ & _ & _ & Hne & _); done|].
  split; [intros (_ & _ & Hne & _); done|].
  split; [intros (Hne & _); done|].
  intros Hc. rewrite Hc in Hsub. destruct Hsub as (u & Hu & Hsubs).
  exists u. split; [done|]. rewrite Hu, Hsubs. cbn. split.
  - rewrite elem_of_app, list_elem_of_singleton. by right.
  - rewrite list_elem_of_filter. intros [Hne _]. done.
Qed.

(** ** The snapshot taken at bind time *)


Lemma is_field_guard (el : Element) :
  (negb (isInputElement (Some el)) && negb (isTextAreaElement (Some el)))
  || bool_decide (name el = "")
  = negb (is_field el).
Proof.
  unfold is_field.
  by destruct (isInputElement _), (isTextAreaElement _), (bool_decide _).
Qed.





(** Case analysis along the branches of the body of the loop. *)
Ltac step_cases :=
  repeat (match goal with
          | |- context [match querySelectorAll_name ?n ?k with
                        | Some _ => _ | None => _ end] =>
              destruct (querySelectorAll_name n k)
          | |- context [if ?b then _ else _] => destruct b
          | |- context [match js_read ?d ?k with
                        | VUndefined => _ | _ => _ end] =>
              destruct (js_read d k)
          end; cbn [fst snd alloc fresh touched touched_update loop_stores
                    is_undefined]).

Section Snapshot.
Context `{JsRuntime}.
Variable node : HTMLFormElement.

Lemma fold_thrown (l : list Element) (thrown : Stores * JsValue) :
  fold_left (defaultValue_step node) l (inr thrown) = inr thrown.
Proof. induction l as [|x l IH]; [done|]. apply IH. Qed.

(** A loop that ends without a throw has had none. *)
Lemma fold_cons_inl (x : Element) (l : list Element)
    (a r : Stores * gmap string JsValue) :
  fold_left (defaultValue_step node) (x :: l) (inl a) = inl r →
  ∃ a1, defaultValue_step node (inl a) x = inl a1
        ∧ fold_left (defaultValue_step node) l (inl a1) = inl r.
Proof.
  cbn [fold_left].
  destruct (defaultValue_step node (inl a) x) as [a1|t]; [eauto|].
  by rewrite fold_thrown.
Qed.


Lemma step_skip (s : Stores) (d : gmap string JsValue) (el : Element) :
  is_field el = false → defaultValue_step node (inl (s, d)) el = inl (s, d).
Proof.
  intros Hf. unfold defaultValue_step. by rewrite is_field_guard, Hf.
Qed.




(** A field gets its touched entry, false, before anything can throw. *)
Lemma step_touched (s : Stores) (d : gmap string JsValue) (el : Element) :
  is_field el = true →
  touched (loop_stores (defaultValue_step node (inl (s, d)) el))
  = <[name el := false]> (touched s).
Proof.
  intros Hf. unfold defaultValue_step. rewrite is_field_guard, Hf.
  cbn [negb]. step_cases; done.
Qed.


Lemma field_names_cons (x : Element) (l : list Element) :
  field_names (x :: l)
  = if is_field x then name x :: field_names l else field_names l.
Proof. unfold field_names. cbn. by destruct (is_field x). Qed.



(** Thrown or not, the loop leaves the touched entries alone that are not
    under the name of a field. *)
Lemma fold_touched_other (l : list Element) (s : Stores)
    (d : gmap string JsValue) (k : string) :
  k ∉ field_names l →
  touched (loop_stores (fold_left (defaultValue_step node) l (inl (s, d))))
    !! k = touched s !! k.
Proof.
  revert s d. induction l as [|x l IH]; intros s d Hk; [done|].
  cbn [fold_left]. rewrite field_names_cons in Hk.
  destruct (is_field x) eqn:Hf.
  - apply not_elem_of_cons in Hk as [Hne Hk].
    pose proof (step_touched s d x Hf) as Ht.
    destruct (defaultValue_step node (inl (s, d)) x) as [[s1 d1]|[s1 e]];
      cbn in Ht.
    + rewrite IH, Ht by done. by rewrite lookup_insert_ne.
    + rewrite fold_thrown. cbn. rewrite Ht. by rewrite lookup_insert_ne.
  - rewrite step_skip by done. by apply IH.
Qed.


(** The snapshot that completes is the loop that ends without a throw,
    followed by [data.set]. *)
Lemma snapshot_completed (s : Stores) :
  (setFormFieldsDefaultValues node s).2 = Completed →
  ∃ s' d,
    fold_left (defaultValue_step node) (elements node) (inl (s, ∅))
    = inl (s', d)
    ∧ setFormFieldsDefaultValues node s = (data_set d s', Completed).
Proof.
  unfold setFormFieldsDefaultValues.
  destruct (fold_left _ _ _) as [[s' d]|[s' e]]; [eauto | done].
Qed.




End Snapshot.




Section SnapshotValues.
Context `{JsRuntime}.
Variable node : HTMLFormElement.

(** The loop stores booleans, numbers, strings and arrays, never an
    object. *)
Lemma step_no_object (s s' : Stores) (d d' : gmap string JsValue)
    (el : Element) (k : string) (r : ref) (props : list (string * JsValue)) :
  defaultValue_step node (inl (s, d)) el = inl (s', d') →
  d' !! k = Some (VObject r props) →
  d !! k = Some (VObject r props).
Proof.
  destruct (is_field el) eqn:Hf;
    [|rewrite step_skip by done; by intros [= <- <-]].
  unfold defaultValue_step, fieldValue, assign_prop.
  rewrite is_field_guard, Hf. cbn [negb].
  step_cases; intros ?; simplify_eq; try done;
    (destruct (decide (name el = k)) as [<-|Hne];
     [rewrite lookup_insert_eq; intros ?; simplify_eq
     |by rewrite lookup_insert_ne]).
Qed.

Lemma fold_no_object (l : list Element) (s s' : Stores)
    (d d' : gmap string JsValue) (k : string) (r : ref)
    (props : list (string * JsValue)) :
  fold_left (defaultValue_step node) l (inl (s, d)) = inl (s', d') →
  d' !! k = Some (VObject r props) →
  d !! k = Some (VObject r props).
Proof.
  revert s d. induction l as [|x l IH]; intros s d Hfold.
  - cbn in Hfold. by simplify_eq.
  - apply fold_cons_inl in Hfold as ([s1 d1] & Hstep & Hfold).
    intros Hk. eapply step_no_object; [done|]. by eapply IH.
Qed.

Lemma snapshot_no_nested_path (s : Stores) (k1 k2 : string)
    (rest : list string) :
  (setFormFieldsDefaultValues node s).2 = Completed →
  record_get_path (data (setFormFieldsDefaultValues node s).1)
                  (k1 :: k2 :: rest) = VUndefined.
Proof.
  intros (s' & d & Hfold & ->)%snapshot_completed.
  cbn [fst data data_set]. unfold record_get_path, get_prop.
  destruct (d !! k1) as [v|] eqn:E; [|done].
  destruct v; try done.
  eapply fold_no_object in E; [|done]. by rewrite lookup_empty in E.
Qed.



End SnapshotValues.


(** C3 (what the code does): the snapshot stores the value of a control
    under its name as it is written.  The file input named
    [profile.picture] ends under the key ["profile.picture"]; nothing is
    stored under ["profile"], and for no form does the snapshot hold anything
    along a path of two names or more. *)
Theorem snapshot_dotted_name_is_flat `{JsRuntime} :
  (∀ s, let d := data (setFormFieldsDefaultValues picture_form s).1 in
        d !! "profile.picture" = Some (VString "")
        ∧ d !! "profile" = None
        ∧ record_get_path d ["profile"; "picture"] = VUndefined)
  ∧ (∀ node s k1 k2 rest,
       (setFormFieldsDefaultValues node s).2 = Completed →
       record_get_path (data (setFormFieldsDefaultValues node s).1)
                       (k1 :: k2 :: rest) = VUndefined).
Proof.
  split.
  - intros s d. subst d. split; [|split].
    + by vm_compute.
    + by vm_compute.
    + by apply snapshot_no_nested_path.
  - intros. by apply snapshot_no_nested_path.
Qed.

Section Checkboxes.
Context `{JsRuntime}.
Variable node : HTMLFormElement.




End Checkboxes.


(** * The claims on sample forms *)

(** An errors object that holds no message at all, nested under a key,
    blocks the submission: no leaf is truthy and the callback is not
    called. *)
Lemma handleSubmit_guard_counterexample :
  has_truthy_leaf_in (errors (with_errors nested_no_error)) = false
  ∧ onSubmit_calls
      (handleSubmit plain_config submit_event (with_errors nested_no_error)).1.2
    = [].
Proof. split; by vm_compute. Qed.

Lemma handleSubmit_guard_witness :
  onSubmit_calls
    (handleSubmit plain_config submit_event (with_errors nested_error)).1.2 = []
  ∧ onSubmit_calls
      (handleSubmit plain_config submit_event (with_errors ∅)).1.2
    = [data (with_errors ∅)].
Proof.
  split.
  - destruct (handleSubmit_guard plain_config submit_event
                (with_errors nested_error)) as (_ & _ & Hleaf & _).
    apply Hleaf. by vm_compute.
  - destruct (handleSubmit_guard plain_config submit_event (with_errors ∅))
      as (Hcall & _).
    apply Hcall. intros key v Hv. cbn [errors with_errors] in Hv.
    by rewrite lookup_empty in Hv.
Defined.




Lemma newDataSet_without_initialValues_witness :
  @newDataSet sample_runtime plain_config {[ "email" := VString "x@y.org" ]}
    (with_errors ∅)
  = (with_errors ∅, Thrown TypeError).
Proof.
  destruct (@newDataSet_without_initialValues sample_runtime plain_config
              {[ "email" := VString "x@y.org" ]} (with_errors ∅))
    as [Hthrow _].
  apply Hthrow; [reflexivity|]. exists "email". by vm_compute.
Defined.

Lemma blur_and_plain_change_touch_only_witness :
  touched (handleBlur login_form {| target := Some email_input |}
             (with_errors ∅)) !! "email" = Some true
  ∧ data (@handleChange sample_runtime login_form
            {| target := Some email_input |} (with_errors ∅)).1
    = data (with_errors ∅).
Proof.
  destruct (@blur_and_plain_change_touch_only sample_runtime login_form
              email_input (with_errors ∅)) as [Hblur Hchange]; [done|].
  destruct Hblur as [Ht _]; [by left|].
  destruct Hchange as (_ & Hd & _); [done..|].
  split; [|exact Hd]. rewrite Ht. by vm_compute.
Defined.

(** The log-in form, bound and destroyed: the listener for focusout is
    still on the form. *)
Lemma destroy_leaves_focusout_listener_witness :
  let bound := @form sample_runtime plain_config login_form no_stores in
  let bnd := {| binding_id := 0%N; unsubscribeErrors := None |} in
  bound.2 = Returned bnd
  ∧ ("focusout", HandleBlur 0%N)
    ∈ listeners (destroy bnd bound.1.2 bound.1.1).2.
Proof.
  split; [reflexivity|].
  destruct (@destroy_leaves_focusout_listener sample_runtime plain_config
              login_form no_stores
              {| binding_id := 0%N; unsubscribeErrors := None |} eq_refl)
    as (_ & Hstays & _).
  exact Hstays.
Defined.

(** After [destroy], a focusout on the email input still marks the field
    as touched. *)
Lemma focusout_after_destroy :
  let bound := @form sample_runtime plain_config login_form no_stores in
  let bnd := {| binding_id := 0%N; unsubscribeErrors := None |} in
  let destroyed := destroy bnd bound.1.2 bound.1.1 in
  bound.2 = Returned bnd
  ∧ touched destroyed.1 !! "email" = Some false
  ∧ touched (@dispatchEvent sample_runtime plain_config "focusout" destroyed.2
               {| target := Some email_input |} destroyed.1) !! "email"
    = Some true
  ∧ @dispatchEvent sample_runtime plain_config "input" destroyed.2
      {| target := Some email_input |} destroyed.1 = destroyed.1.
Proof. repeat split; by vm_compute. Qed.

Lemma snapshot_dotted_name_is_flat_witness :
  record_get_path
    (data (@setFormFieldsDefaultValues sample_runtime signup_form
             no_stores).1) ["preferences"; "technology"] = VUndefined.
Proof.
  destruct (@snapshot_dotted_name_is_flat sample_runtime) as [_ Hflat].
  apply Hflat. reflexivity.
Defined.







(** * Further properties of the code *)

(** ** Radio buttons *)

Section Radios.
Context `{JsRuntime}.
Variable node : HTMLFormElement.





End Radios.



(** ** The snapshot replaces the data *)

Section SnapshotKeys.
Context `{JsRuntime}.
Variable node : HTMLFormElement.



End SnapshotKeys.


(** ** What an event can change *)

Section Events.
Context `{JsRuntime}.
Variable config : FormConfig.
Variable node : HTMLFormElement.
Variable e : Event.

Lemma setCheckboxValues_effect (el : Element) (s : Stores) :
  touched (setCheckboxValues node el s).1 = touched s
  ∧ (data (setCheckboxValues node el s).1 = data s
     ∨ ∃ v, data (setCheckboxValues node el s).1 = <[name el := v]> (data s)).
Proof.
  unfold setCheckboxValues.
  destruct (querySelectorAll_name node (name el)); [|cbn; auto].
  destruct (bool_decide (length _ = 1%nat)); cbn; eauto.
Qed.

Lemma setRadioValues_effect (el : Element) (s : Stores) :
  touched (setRadioValues node el s).1 = touched s
  ∧ (data (setRadioValues node el s).1 = data s
     ∨ ∃ v, data (setRadioValues node el s).1 = <[name el := v]> (data s)).
Proof.
  unfold setRadioValues.
  destruct (querySelectorAll_name node (name el)); cbn; eauto.
Qed.

(** A handler leaves the stores as they are, or sets the touched entry of
    the target and writes the data under the name of the target at most. *)
Lemma handler_effect (l : Listener) (s : Stores) :
  l ≠ HandleSubmit →
  let s' := run_listener config node e s l in
  (touched s' = touched s ∧ data s' = data s)
  ∨ ∃ el, target e = Some el
          ∧ touched s' = <[name el := true]> (touched s)
          ∧ (data s' = data s ∨ ∃ v, data s' = <[name el := v]> (data s)).
Proof.
  intros Hl. destruct l as [b|b|b|]; [| | |done]; cbn [run_listener].
  - unfold handleInput.
    destruct (negb (isInputElement (target e)) && _); [by auto|].
    destruct (target e) as [el|]; [|by auto].
    destruct (_ || _); [by auto|].
    destruct (bool_decide (name el = "")); [by auto|].
    cbn. right. exists el. eauto.
  - unfold handleChange.
    destruct (negb (isInputElement (target e))); [by auto|].
    destruct (target e) as [el|]; [|by auto].
    destruct (bool_decide (name el = "")); [by auto|].
    set (s1 := touched_update _ s).
    cbn zeta. right. exists el. split; [done|].
    destruct (bool_decide (type el = "checkbox")).
    + destruct (setCheckboxValues_effect el s1) as [Hct Hcd].
      destruct (setCheckboxValues node el s1) as [s2 c2].
      cbn [fst] in Hct, Hcd.
      change (touched s1) with (<[name el := true]> (touched s)) in Hct.
      change (data s1) with (data s) in Hcd.
      destruct c2; cbn [fst]; [|by split..].
      destruct (bool_decide (type el = "radio")); [|by split].
      destruct (setRadioValues_effect el s2) as [Hrt Hrd].
      rewrite Hrt. split; [done|].
      destruct Hrd as [->|[vr ->]]; [done|]. right.
      destruct Hcd as [->|[vc ->]]; [by exists vr|].
      exists vr. apply insert_insert_eq.
    + destruct (bool_decide (type el = "radio")); [|by auto].
      destruct (setRadioValues_effect el s1) as [Hrt Hrd].
      by rewrite Hrt.
  - unfold handleBlur.
    destruct (negb (isInputElement (target e)) && _); [by auto|].
    destruct (target e) as [el|]; [|by auto].
    destruct (bool_decide (name el = "")); [by auto|].
    cbn. right. exists el. auto.
Qed.

(** One listener: a touched entry stays, and stays true if it is; the data
    changes under the name of the target only. *)
Lemma run_listener_effect (l : Listener) (s : Stores) :
  let s' := run_listener config node e s l in
  (∀ k b, touched s !! k = Some b →
          ∃ b', touched s' !! k = Some b' ∧ (b = true → b' = true))
  ∧ (∀ k, (∀ el, target e = Some el → name el ≠ k) →
          data s' !! k = data s !! k).
Proof.
  destruct (decide (l = HandleSubmit)) as [->|Hl].
  - cbn [run_listener]. split; [|by rewrite handleSubmit_data].
    intros k b Hk. rewrite handleSubmit_touched, Hk. eauto.
  - pose proof (handler_effect l s Hl) as Hh. cbn zeta in Hh |- *.
    destruct Hh as [[Ht Hd]|(el & Htg & Ht & Hd)]; rewrite Ht.
    + split; [eauto | by rewrite Hd].
    + split.
      * intros k b Hk. destruct (decide (name el = k)) as [<-|Hne].
        -- rewrite lookup_insert_eq. eauto.
        -- rewrite lookup_insert_ne by done. eauto.
      * intros k Hk. destruct Hd as [->|[v ->]]; [done|].
        rewrite lookup_insert_ne; [done | by apply Hk].
Qed.

Lemma fold_listeners_effect (ls : list Listener) (s : Stores) :
  let s' := fold_left (run_listener config node e) ls s in
  (∀ k b, touched s !! k = Some b →
          ∃ b', touched s' !! k = Some b' ∧ (b = true → b' = true))
  ∧ (∀ k, (∀ el, target e = Some el → name el ≠ k) →
          data s' !! k = data s !! k).
Proof.
  revert s. induction ls as [|l ls IH]; intros s; cbn [fold_left].
  - split; [eauto | done].
  - destruct (run_listener_effect l s) as (Ht & Hd).
    destruct (IH (run_listener config node e s l)) as (Ht' & Hd').
    cbn zeta. split.
    + intros k b Hk. destruct (Ht k b Hk) as (b1 & Hb1 & Hmono).
      destruct (Ht' k b1 Hb1) as (b2 & Hb2 & Hmono'). eauto.
    + intros k Hk. by rewrite Hd', Hd.
Qed.

End Events.

(** X4: no event makes a field untouched: whatever listeners of the form
    run for an event, a touched entry that was there is still there, and one
    that was true is still true. *)
Theorem dispatchEvent_keeps_touched `{JsRuntime} (config : FormConfig)
    (ty : string) (node : HTMLFormElement) (e : Event) (s : Stores)
    (k : string) (b : bool) :
  touched s !! k = Some b →
  ∃ b', touched (dispatchEvent config ty node e s) !! k = Some b'
        ∧ (b = true → b' = true).
Proof.
  intros Hk. unfold dispatchEvent.
  destruct (fold_listeners_effect config node e
              (List.filter (λ p, bool_decide (p.1 = ty)) (listeners node)).*2 s)
    as (Ht & _).
  by apply Ht.
Qed.

(** X5: an event changes the data under the name of its target at most:
    the entries of the data under other keys are the same after the
    listeners of the form have run, whether or not one of them threw. *)
Theorem dispatchEvent_data_frame `{JsRuntime} (config : FormConfig)
    (ty : string) (node : HTMLFormElement) (e : Event) (s : Stores)
    (k : string) :
  (∀ el, target e = Some el → name el ≠ k) →
  data (dispatchEvent config ty node e s) !! k = data s !! k.
Proof.
  unfold dispatchEvent.
  destruct (fold_listeners_effect config node e
              (List.filter (λ p, bool_decide (p.1 = ty)) (listeners node)).*2 s)
    as (_ & Hd).
  apply Hd.
Qed.

(** ** The submit handler, further *)


(** ** [data.set], further *)

(** X7: setting the data to the configured initial values themselves
    leaves the touched map as it is, except for [NaN]: an untouched field
    whose initial value is not-a-number becomes touched, since a
    not-a-number is [!==] itself. *)
Theorem newDataSet_initial_values `{JsRuntime} (config : FormConfig)
    (iv : gmap string JsValue) (s : Stores) :
  initialValues config = Some iv →
  let r := newDataSet config iv s in
  r.2 = Completed
  ∧ data r.1 = iv
  ∧ (∀ k, touched s !! k = Some false →
          (touched r.1 !! k = Some true
           ↔ get_prop VUndefined iv k = VNumber NaN))
  ∧ ((∀ k, touched s !! k = Some false →
           get_prop VUndefined iv k ≠ VNumber NaN) →
     touched r.1 = touched s).
Proof.
  intros Hi r. subst r.
  destruct (newDataSet_present config iv iv s Hi) as (t & -> & Hk).
  cbn. split; [done|]. split; [done|]. split.
  - intros k Hf. rewrite Hk, decide_True by by apply elem_of_untouchedKeys.
    rewrite <- js_read_NaN, <- strict_neq_self.
    split; [by intros [= ?] | by intros ->].
  - intros Hnan. apply map_eq. intros k. rewrite Hk.
    destruct (decide (k ∈ untouchedKeys (touched s))) as [Hin|Hin]; [|done].
    apply elem_of_untouchedKeys in Hin. rewrite Hin. f_equal.
    destruct (strict_neq _ _) eqn:E; [|done].
    apply strict_neq_self, js_read_NaN in E. by apply Hnan in Hin.
Qed.

(** X8: once a submit has been handled every touched entry is true, so a
    [data.set] that follows stores the values and leaves the touched map
    alone, without throwing, also when no initial values are configured. *)
Theorem newDataSet_after_submit `{JsRuntime} (config : FormConfig)
    (event : Event) (s : Stores) (values : gmap string JsValue) :
  let s1 := (handleSubmit config event s).1.1 in
  let r := newDataSet config values s1 in
  r.2 = Completed ∧ data r.1 = values ∧ touched r.1 = touched s1.
Proof.
  intros s1 r. subst r. unfold newDataSet.
  rewrite untouchedKeys_nil; [done|].
  intros k b. subst s1. rewrite handleSubmit_touched.
  destruct (touched s !! k); cbn; congruence.
Qed.

(** ** The callback subscribed to the errors *)


(** ** Binding and unbinding *)

Section Bound.
Context `{JsRuntime}.
Variable config : FormConfig.

Lemma form_listeners_fresh (node : HTMLFormElement) (s : Stores)
    (bnd : Binding) :
  listeners node = [] →
  (form config node s).2 = Returned bnd →
  listeners (form config node s).1.2
  = [("input", HandleInput (binding_id bnd));
     ("change", HandleChange (binding_id bnd));
     ("focusout", HandleBlur (binding_id bnd));
     ("submit", HandleSubmit)].
Proof.
  intros Hl Hret.
  destruct (form_returned config node s bnd Hret) as (_ & _ & -> & _).
  set (b := binding_id bnd).
  assert (H1 : listeners (addEventListener "input" (HandleInput b) node)
               = [("input", HandleInput b)]).
  { rewrite addEventListener_new; rewrite Hl; [done | apply not_elem_of_nil]. }
  assert (H2 : listeners (addEventListener "change" (HandleChange b)
                            (addEventListener "input" (HandleInput b) node))
               = [("input", HandleInput b); ("change", HandleChange b)]).
  { rewrite addEventListener_new; rewrite H1; [done|].
    intros Hin. repeat rewrite elem_of_cons in Hin. rewrite elem_of_nil in Hin.
    intuition discriminate. }
  assert (H3 : listeners (addEventListener "focusout" (HandleBlur b)
                            (addEventListener "change" (HandleChange b)
                               (addEventListener "input" (HandleInput b)
                                  node)))
               = [("input", HandleInput b); ("change", HandleChange b);
                  ("focusout", HandleBlur b)]).
  { rewrite addEventListener_new; rewrite H2; [done|].
    intros Hin. repeat rewrite elem_of_cons in Hin. rewrite elem_of_nil in Hin.
    intuition discriminate. }
  rewrite addEventListener_new; rewrite H3; [done|].
  intros Hin. repeat rewrite elem_of_cons in Hin. rewrite elem_of_nil in Hin.
  intuition discriminate.
Qed.




(** The listeners that run on a form that had none before [form]. *)
Lemma dispatch_fresh_binding (node : HTMLFormElement) (s : Stores)
    (bnd : Binding) :
  listeners node = [] →
  (form config node s).2 = Returned bnd →
  let node' := (form config node s).1.2 in
  (∀ e s',
     dispatchEvent config "input" node' e s' = handleInput node' e s'
     ∧ dispatchEvent config "change" node' e s' = (handleChange node' e s').1
     ∧ dispatchEvent config "focusout" node' e s' = handleBlur node' e s'
     ∧ dispatchEvent config "submit" node' e s'
       = (handleSubmit config e s').1.1)
  ∧ (∀ ty e s',
       ty ≠ "input" → ty ≠ "change" → ty ≠ "focusout" → ty ≠ "submit" →
       dispatchEvent config ty node' e s' = s').
Proof.
  intros Hl Hret node'.
  pose proof (form_listeners_fresh node s bnd Hl Hret) as Hls.
  fold node' in Hls. split.
  - intros e s'. unfold dispatchEvent. rewrite Hls. repeat split.
  - intros ty e s' H1 H2 H3 H4. unfold dispatchEvent. rewrite Hls.
    cbn [List.filter fst].
    by rewrite !bool_decide_eq_false_2.
Qed.

(** A handler returns the stores as they are for a target that is no
    named input or textarea. *)
Lemma handlers_skip (node : HTMLFormElement) (e : Event) (s : Stores) :
  (∀ el, target e = Some el →
         (nodeName el ≠ "INPUT" ∧ nodeName el ≠ "TEXTAREA") ∨ name el = "") →
  handleInput node e s = s ∧ (handleChange node e s).1 = s
  ∧ handleBlur node e s = s.
Proof.
  intros Hskip. unfold handleInput, handleChange, handleBlur.
  destruct (target e) as [el|]; [|done].
  destruct (Hskip el eq_refl) as [[Hi Ht]|Hn].
  - cbn. by rewrite (bool_decide_eq_false_2 _ Hi), (bool_decide_eq_false_2 _ Ht).
  - rewrite (bool_decide_eq_true_2 _ Hn).
    repeat split;
      repeat (match goal with
              | |- context [if ?b then _ else _] => destruct b
              end; try done).
Qed.

End Bound.

(** X10: on a form that has no listeners yet, a [form] that returns has
    installed its handlers so that an input event runs [handleInput], a
    change event [handleChange], a focusout event [handleBlur] and a submit
    event [handleSubmit], each once, and an event of another type runs
    nothing; the controls of the form are as before. *)
Theorem form_installs_handlers `{JsRuntime} (config : FormConfig)
    (node : HTMLFormElement) (s : Stores) (bnd : Binding) :
  listeners node = [] →
  (form config node s).2 = Returned bnd →
  let node' := (form config node s).1.2 in
  elements node' = elements node
  ∧ (∀ e s',
       dispatchEvent config "input" node' e s' = handleInput node' e s'
       ∧ dispatchEvent config "change" node' e s'
         = (handleChange node' e s').1
       ∧ dispatchEvent config "focusout" node' e s' = handleBlur node' e s'
       ∧ dispatchEvent config "submit" node' e s'
         = (handleSubmit config e s').1.1)
  ∧ (∀ ty e s',
       ty ≠ "input" → ty ≠ "change" → ty ≠ "focusout" → ty ≠ "submit" →
       dispatchEvent config ty node' e s' = s').
Proof.
  intros Hl Hret node'. split.
  - subst node'.
    destruct (form_returned config node s bnd Hret) as (_ & _ & -> & _).
    by rewrite !addEventListener_elements.
  - by apply (dispatch_fresh_binding config node s bnd).
Qed.

(** X13: on a form bound by [form], an input, change or focusout event
    whose target is missing, has no name, or is neither an input nor a
    textarea leaves every store as it is.  So does a change event on a
    textarea or a select (the change handler takes inputs only), and an
    input event on a checkbox or a radio button. *)
Theorem ignored_events `{JsRuntime} (config : FormConfig)
    (node : HTMLFormElement) (s : Stores) :
  listeners node = [] →
  let node' := (form config node s).1.2 in
  (∀ ty e s',
     ty ≠ "submit" →
     (∀ el, target e = Some el →
            (nodeName el ≠ "INPUT" ∧ nodeName el ≠ "TEXTAREA")
            ∨ name el = "") →
     dispatchEvent config ty node' e s' = s')
  ∧ (∀ el s', nodeName el ≠ "INPUT" →
              dispatchEvent config "change" node' {| target := Some el |} s'
              = s')
  ∧ (∀ el s', type el = "checkbox" ∨ type el = "radio" →
              dispatchEvent config "input" node' {| target := Some el |} s'
              = s').
Proof.
  intros Hl node'.
  destruct ((form config node s).2) as [bnd|thrown] eqn:Hform.
  - destruct (dispatch_fresh_binding config node s bnd Hl Hform)
      as [Hrun Hother].
    fold node' in Hrun, Hother. split; [|split].
    + intros ty e s' Hsub Hskip.
      destruct (handlers_skip node' e s' Hskip) as (Hi & Hc & Hb).
      destruct (Hrun e s') as (Ei & Ec & Eb & _).
      destruct (decide (ty = "input")) as [->|?]; [congruence|].
      destruct (decide (ty = "change")) as [->|?]; [congruence|].
      destruct (decide (ty = "focusout")) as [->|?]; [congruence|].
      by apply Hother.
    + intros el s' Hn.
      destruct (Hrun {| target := Some el |} s') as (_ & -> & _).
      unfold handleChange. cbn. by rewrite (bool_decide_eq_false_2 _ Hn).
    + intros el s' Hty.
      destruct (Hrun {| target := Some el |} s') as (-> & _).
      unfold handleInput. cbn [target].
      assert (bool_decide (type el = "checkbox")
              || bool_decide (type el = "radio") = true) as ->.
      { apply orb_true_iff. rewrite !bool_decide_eq_true. done. }
      by destruct (negb _ && negb _).
  - destruct (form_threw config node s thrown Hform) as [Hnode _].
    assert (Hnone : ∀ ty e s', dispatchEvent config ty node' e s' = s').
    { intros ty e s'. unfold dispatchEvent. subst node'.
      by rewrite Hnode, Hl. }
    repeat split; intros; apply Hnone.
Qed.




(** ** When [form] throws *)

Section Thrown.
Context `{JsRuntime}.
Variable node : HTMLFormElement.




End Thrown.


(** ** The further properties on sample forms *)




Lemma dispatchEvent_keeps_touched_witness :
  ∃ b', touched
          (@dispatchEvent sample_runtime plain_config "input"
             (@form sample_runtime plain_config login_form no_stores).1.2
             {| target := Some email_input |} (with_errors ∅))
          !! "password" = Some b'
        ∧ (true = true → b' = true).
Proof.
  apply (@dispatchEvent_keeps_touched sample_runtime plain_config "input"
           (@form sample_runtime plain_config login_form no_stores).1.2
           {| target := Some email_input |} (with_errors ∅) "password" true).
  by vm_compute.
Defined.

Lemma dispatchEvent_data_frame_witness :
  data (@dispatchEvent sample_runtime plain_config "input"
          (@form sample_runtime plain_config login_form no_stores).1.2
          {| target := Some email_input |} (with_errors ∅)) !! "password"
  = Some (VString "").
Proof.
  rewrite (@dispatchEvent_data_frame sample_runtime plain_config "input"
             (@form sample_runtime plain_config login_form no_stores).1.2
             {| target := Some email_input |} (with_errors ∅) "password").
  - by vm_compute.
  - intros el [= <-]. done.
Defined.


Lemma newDataSet_initial_values_witness :
  touched (@newDataSet sample_runtime nan_config nan_values nan_stores).1
    !! "age" = Some true.
Proof.
  destruct (@newDataSet_initial_values sample_runtime nan_config nan_values
              nan_stores eq_refl) as (_ & _ & Hnan & _).
  apply (Hnan "age"); by vm_compute.
Defined.

Lemma form_installs_handlers_witness :
  let node' := (@form sample_runtime plain_config login_form no_stores).1.2 in
  @dispatchEvent sample_runtime plain_config "input" node'
    {| target := Some email_input |} no_stores
  = @handleInput sample_runtime node' {| target := Some email_input |}
      no_stores.
Proof.
  destruct (@form_installs_handlers sample_runtime plain_config login_form
              no_stores {| binding_id := 0%N; unsubscribeErrors := None |}
              eq_refl eq_refl) as (_ & Hrun & _).
  apply Hrun.
Defined.


Lemma ignored_events_witness :
  let node' := (@form sample_runtime plain_config profile_form no_stores).1.2 in
  @dispatchEvent sample_runtime plain_config "change" node'
    {| target := Some bio |} (with_errors ∅) = with_errors ∅
  ∧ @dispatchEvent sample_runtime plain_config "focusout" node'
      {| target := Some country |} (with_errors ∅) = with_errors ∅.
Proof.
  destruct (@ignored_events sample_runtime plain_config profile_form
              no_stores eq_refl) as (Hskip & Hchange & _).
  split.
  - apply Hchange. done.
  - apply Hskip; [done|]. intros el [= <-]. left. done.
Defined.

